(** * HOOMD-blue: the Python layer of the load balancer and of the active
      forces, and the balancing step they drive

    Sources embedded here:
    - [hoomd/tune/balance.py]: [LoadBalancer.__init__], [LoadBalancer._attach];
    - [hoomd/md/force.py]: [Custom.gpu_local_force_arrays], [Active._attach],
      [ActiveOnManifold._getattr_param], [ActiveOnManifold._setattr_param],
      [ActiveOnManifold._attach].

    The balancing step itself is native code; module [Balance] follows the
    specification for it.

    Python floats are represented by rationals ([Q]); Python integers by [Z];
    exceptions by an explicit [result] type. *)

From Stdlib Require Import ZArith QArith Qround Qabs Qminmax Lqa Lia List Sorted.
From stdpp Require Import gmap strings.
Import ListNotations.

Local Open Scope string_scope.

(** ** Python results and exceptions *)

Module Py.

Inductive exn : Type :=
| AttributeError (msg : string)
| RuntimeError (msg : string)
| KeyError (key : string)
| TypeConversionError (key : string).

Inductive result (A : Type) : Type :=
| Ok (a : A)
| Raise (e : exn).
Arguments Ok {A} a.
Arguments Raise {A} e.

Definition bind {A B} (r : result A) (k : A -> result B) : result B :=
  match r with
  | Ok a => k a
  | Raise e => Raise e
  end.

Definition raises {A} (r : result A) : bool :=
  match r with Ok _ => false | Raise _ => true end.

End Py.
Import Py.

Notation "x <- r ;; k" := (Py.bind r (fun x => k))
  (at level 100, r at next level, right associativity).

(** ** Devices and native extension modules *)

(** [hoomd.device] declares the base class [Device] and its two subclasses
    [CPU] and [GPU]; the module itself is not among the sources embedded
    here, so a device is represented by the class it instantiates.  The two
    [isinstance] tests used by the [_attach] methods are kept separate. *)
Module Device.

Inductive device : Type := Base | CPU | GPU.

Definition isinstance_GPU (d : device) : bool :=
  match d with GPU => true | _ => false end.

Definition isinstance_CPU (d : device) : bool :=
  match d with CPU => true | _ => false end.

End Device.

(** A compiled extension module ([_hoomd], [_md]) is the finite set of the
    class names it exports; [getattr] on it raises [AttributeError] for a
    name it does not export. *)
Module Native.

Definition module := gset string.

Definition getattr (m : module) (name : string) : result string :=
  if decide (name ∈ m) then Ok name
  else Raise (AttributeError name).

End Native.

(** ** Python values stored in a [ParameterDict] *)

Record Trigger : Type := { compute : Z -> bool }.

(** A [hoomd.md.manifold.Manifold] instance as [force.py] uses it: the name
    of its class, its attached flag and its native object. *)
Record Manifold : Type := {
  __class____name__ : string;
  manifold_attached : bool;
  manifold_cpp_obj : option string
}.

Inductive pyval : Type :=
| PyNone
| PyBool (b : bool)
| PyInt (n : Z)
| PyFloat (q : Q)
| PyTrigger (t : Trigger)
| PyFilter (tags : list nat)
| PyManifold (m : Manifold).

Inductive pytype : Type :=
| TBool | TInt | TFloat | TTrigger | TParticleFilter | TManifold.

Definition has_type (t : pytype) (v : pyval) : bool :=
  match t, v with
  | TBool, PyBool _ => true
  | TInt, PyInt _ => true
  | TFloat, PyFloat _ => true
  | TTrigger, PyTrigger _ => true
  | TParticleFilter, PyFilter _ => true
  | TManifold, PyManifold _ => true
  | _, _ => false
  end.

(** Truncation toward zero, as Python's [int] does on a float. *)
Definition Qtrunc (q : Q) : Z :=
  if Qle_bool 0 q then Qfloor q else Qceiling q.

Module ParameterDict.

(** Modelled from the spec: the class [ParameterDict] of
    [hoomd.parameterdicts] is not among the sources; only its uses are
    (construction from keyword/type pairs, [update], item assignment and
    item lookup).  Section 6 of the specification lists the recognised
    options with their types, and values supplied for an option are
    converted to the option's type by calling that type, the way Python's
    [bool], [int] and [float] constructors do; a value the constructor
    does not accept is a conversion error.  No option carries a range. *)
Definition convert (key : string) (t : pytype) (v : pyval) : result pyval :=
  match t, v with
  | TBool, PyNone => Ok (PyBool false)
  | TBool, PyBool b => Ok (PyBool b)
  | TBool, PyInt n => Ok (PyBool (negb (n =? 0)%Z))
  | TBool, PyFloat q => Ok (PyBool (negb (Qeq_bool q 0)))
  | TBool, PyTrigger _ => Ok (PyBool true)
  | TBool, PyFilter _ => Ok (PyBool true)
  | TBool, PyManifold _ => Ok (PyBool true)
  | TInt, PyBool b => Ok (PyInt (Z.b2z b))
  | TInt, PyInt n => Ok (PyInt n)
  | TInt, PyFloat q => Ok (PyInt (Qtrunc q))
  | TFloat, PyBool b => Ok (PyFloat (inject_Z (Z.b2z b)))
  | TFloat, PyInt n => Ok (PyFloat (inject_Z n))
  | TFloat, PyFloat q => Ok (PyFloat q)
  | TTrigger, PyTrigger t => Ok (PyTrigger t)
  | TParticleFilter, PyFilter f => Ok (PyFilter f)
  | TManifold, PyManifold m => Ok (PyManifold m)
  | _, _ => Raise (TypeConversionError key)
  end.

(** Modelled from the spec: the state of a [ParameterDict], the declared
    type of every recognised key and the values set so far. *)
Record t : Type := {
  types : gmap string pytype;
  values : gmap string pyval
}.

(** [ParameterDict(k1=T1, ..., kn=Tn)] *)
Definition make (spec : list (string * pytype)) : t :=
  {| types := list_to_map spec; values := ∅ |}.

(** Modelled from the spec: [d[key] = v] of [ParameterDict], which accepts
    recognised keys only and stores the converted value. *)
Definition setitem (d : t) (key : string) (v : pyval) : result t :=
  match types d !! key with
  | None => Raise (KeyError key)
  | Some ty =>
      v' <- convert key ty v ;;
      Ok {| types := types d; values := <[key := v']> (values d) |}
  end.

(** [d[key]] *)
Definition getitem (d : t) (key : string) : result pyval :=
  match values d !! key with
  | Some v => Ok v
  | None => Raise (KeyError key)
  end.

(** Modelled from the spec: [d.update(other)] of [ParameterDict], one
    item assignment per entry of the Python [dict] [other], in insertion
    order. *)
Fixpoint update (d : t) (other : list (string * pyval)) : result t :=
  match other with
  | [] => Ok d
  | (k, v) :: rest => d' <- setitem d k v ;; update d' rest
  end.

End ParameterDict.

Record Simulation : Type := { device : Device.device }.

(** ** [hoomd/tune/balance.py] *)

Module LoadBalancer.

(** What [_attach] hands to the native constructor. *)
Record cpp_obj : Type := {
  cpp_cls : string;
  cpp_trigger : pyval
}.

Record t : Type := {
  _param_dict : ParameterDict.t;
  _cpp_obj : option cpp_obj
}.

(** [__init__(self, trigger, x, y, z, tolerance, max_iterations)] *)
Definition __init__ (trigger x y z tolerance max_iterations : pyval)
  : result t :=
  let defaults :=
    [("x", x); ("y", y); ("z", z); ("tolerance", tolerance);
     ("max_iterations", max_iterations); ("trigger", trigger)] in
  let _param_dict :=
    ParameterDict.make
      [("x", TBool); ("y", TBool); ("z", TBool); ("max_iterations", TInt);
       ("tolerance", TFloat); ("trigger", TTrigger)] in
  d <- ParameterDict.update _param_dict defaults ;;
  Ok {| _param_dict := d; _cpp_obj := None |}.

(** The keyword defaults of the signature:
    [x=True, y=True, z=True, tolerance=1.02, max_iterations=1]. *)
Definition new (trigger : pyval)
    (x y z tolerance max_iterations : option pyval) : result t :=
  __init__ trigger
    (default (PyBool true) x)
    (default (PyBool true) y)
    (default (PyBool true) z)
    (default (PyFloat (102 # 100)) tolerance)
    (default (PyInt 1) max_iterations).

(** The name looked up in [_hoomd] by [_attach]. *)
Definition cpp_cls_name (device : Device.device) : string :=
  if Device.isinstance_GPU device then "LoadBalancerGPU"
  else "LoadBalancer".

(** [_attach(self)]; [self.trigger] reads the parameter dictionary since
    the object is not attached yet. *)
Definition _attach (_hoomd : Native.module) (sim : Simulation)
    (self : t) : result t :=
  cpp_cls <- Native.getattr _hoomd (cpp_cls_name (device sim)) ;;
  trigger <- ParameterDict.getitem (_param_dict self) "trigger" ;;
  Ok {| _param_dict := _param_dict self;
        _cpp_obj := Some {| cpp_cls := cpp_cls; cpp_trigger := trigger |} |}.

End LoadBalancer.

(** ** [hoomd/md/force.py] *)

Module Custom.

Record t : Type := {
  _in_context_manager : bool;
  _simulation : option Simulation
}.

Inductive local_access : Type :=
| LocalForceArrays (force : t)
| ForceLocalAccessGPU (force : t).

(** [__init__(self)]; the simulation is set when the force is added to
    one. *)
Definition __init__ : t :=
  {| _in_context_manager := false; _simulation := None |}.

(** [self._simulation.device]; [_simulation] is [None] until the force is
    added to a simulation. *)
Definition simulation_device (self : t) : result Device.device :=
  match _simulation self with
  | Some sim => Ok (device sim)
  | None => Raise (AttributeError "device")
  end.

(** property [cpu_local_force_arrays] *)
Definition cpu_local_force_arrays (self : t) : result local_access :=
  if _in_context_manager self then
    Raise (RuntimeError
      "Cannot enter cpu_local_force_arrays context manager inside another local_force_arrays context manager")
  else Ok (LocalForceArrays self).

(** property [gpu_local_force_arrays] *)
Definition gpu_local_force_arrays (self : t) : result local_access :=
  dev <- simulation_device self ;;
  if Device.isinstance_GPU dev then
    Raise (RuntimeError
      "Cannot access gpu_local_force_arrays without a GPU device")
  else if _in_context_manager self then
    Raise (RuntimeError
      "Cannot enter gpu_local_force_arrays context manager inside another local_force_arrays context manager")
  else Ok (ForceLocalAccessGPU self).

End Custom.

Module Active.

Record cpp_obj : Type := {
  cpp_cls : string;
  cpp_group : pyval
}.

Record t : Type := {
  _param_dict : ParameterDict.t;
  _cpp_obj : option cpp_obj
}.

(** The attribute of [_md] read by [_attach]. *)
Definition my_class_name (dev : Device.device) : string :=
  if Device.isinstance_CPU dev then "ActiveForceCompute"
  else "ActiveForceComputeGPU".

(** [_attach(self)] *)
Definition _attach (_md : Native.module) (sim : Simulation) (self : t)
  : result t :=
  my_class <- Native.getattr _md (my_class_name (device sim)) ;;
  filter <- ParameterDict.getitem (_param_dict self) "filter" ;;
  Ok {| _param_dict := _param_dict self;
        _cpp_obj := Some {| cpp_cls := my_class; cpp_group := filter |} |}.

End Active.

(** Calls that record the names they look up in a native module, in the
    order of the lookups, next to their outcome. *)
Module Traced.

Definition traced (A : Type) : Type := (list string * result A)%type.

Definition lift {A} (r : result A) : traced A := ([], r).

(** [getattr(module, name)], recorded. *)
Definition lookup (m : Native.module) (name : string) : traced string :=
  ([name], Native.getattr m name).

Definition bind {A B} (c : traced A) (k : A -> traced B) : traced B :=
  match snd c with
  | Ok a => ((fst c ++ fst (k a))%list, snd (k a))
  | Raise e => (fst c, Raise e)
  end.

End Traced.

Notation "x <~ c ;; k" := (Traced.bind c (fun x => k))
  (at level 100, c at next level, right associativity).

Module ActiveOnManifold.

Record cpp_obj : Type := {
  cpp_cls : string;
  cpp_group : pyval;
  cpp_manifold : option string;
  cpp_attrs : gmap string pyval
}.

(** [_attached] is a member of the base class [_HOOMDBaseObject]; it is
    kept as a field of its own, so that nothing is assumed about how the
    base class computes it. *)
Record t : Type := {
  _attached : bool;
  _param_dict : ParameterDict.t;
  _cpp_obj : option cpp_obj
}.

(** [getattr(self._cpp_obj, attr)] *)
Definition getattr_cpp_obj (self : t) (attr : string) : result pyval :=
  match _cpp_obj self with
  | Some o =>
      match cpp_attrs o !! attr with
      | Some v => Ok v
      | None => Raise (AttributeError attr)
      end
  | None => Raise (AttributeError attr)
  end.

(** [_getattr_param(self, attr)] *)
Definition _getattr_param (self : t) (attr : string) : result pyval :=
  if _attached self then
    if String.eqb attr "manifold_constraint" then
      ParameterDict.getitem (_param_dict self) "manifold_constraint"
    else getattr_cpp_obj self attr
  else ParameterDict.getitem (_param_dict self) attr.

Section SetAttr.

(** [super()._setattr_param], defined in [_HOOMDBaseObject]: any
    state-passing function. *)
Variable super_setattr_param : t -> string -> pyval -> t * result unit.

(** [_setattr_param(self, attr, value)]: the object after the call and
    the outcome of the call. *)
Definition _setattr_param (self : t) (attr : string) (value : pyval)
  : t * result unit :=
  if String.eqb attr "manifold_constraint" then
    (self, Raise (AttributeError
             "Cannot set manifold_constraint after construction."))
  else super_setattr_param self attr value.

End SetAttr.

(** A sample outcome of [Manifold._attach] (which belongs to
    [hoomd.md.manifold] and is not among the sources): the manifold counts
    as attached and has a native object named after its class. *)
Definition Manifold_attach (m : Manifold) : Manifold :=
  {| __class____name__ := __class____name__ m;
     manifold_attached := true;
     manifold_cpp_obj := Some (__class____name__ m) |}.

(** The string [base_class_str] built by [_attach]. *)
Definition base_class_str (m : Manifold) (dev : Device.device) : string :=
  let base_class_str := "ActiveForceConstraintCompute" in
  let base_class_str := base_class_str +:+ __class____name__ m in
  if Device.isinstance_GPU dev then base_class_str +:+ "GPU"
  else base_class_str.

(** What an attachment runs outside [force.py]; none of it is among the
    sources, so each part is left open and may raise:
    - [manifold_attach]: [Manifold._attach] of [hoomd.md.manifold];
    - [cpp_sys_def]: the evaluation of [sim.state._cpp_sys_def];
    - [get_group]: [sim.state._get_group(filter)];
    - [native_init]: the constructor of the native class of the given
      name, called with the particle group and, for a constraint class,
      the native object of the manifold; it yields the attributes of the
      new native object;
    - [base_attach]: [_attach] of [_HOOMDBaseObject], which ends the
      chain of [super()._attach()] calls. *)
Record Runtime : Type := {
  manifold_attach : Manifold -> result Manifold;
  cpp_sys_def : Simulation -> result unit;
  get_group : Simulation -> pyval -> result pyval;
  native_init : string -> pyval -> option string -> result (gmap string pyval);
  base_attach : t -> result t
}.

(** [self._cpp_obj = o] *)
Definition set_cpp_obj (self : t) (o : cpp_obj) : t :=
  {| _attached := _attached self;
     _param_dict := _param_dict self;
     _cpp_obj := Some o |}.

(** [Active._attach(self)] as [ActiveOnManifold] inherits it, which is
    what [super()._attach()] runs: it looks its own class up in [_md],
    builds the native object from it and replaces [self._cpp_obj].
    [self.filter] goes through the overriding [_getattr_param]. *)
Definition Active_attach (rt : Runtime) (_md : Native.module)
    (sim : Simulation) (self : t) : Traced.traced t :=
  my_class <~ Traced.lookup _md (Active.my_class_name (device sim)) ;;
  _ <~ Traced.lift (cpp_sys_def rt sim) ;;
  filter <~ Traced.lift (_getattr_param self "filter") ;;
  group <~ Traced.lift (get_group rt sim filter) ;;
  attrs <~ Traced.lift (native_init rt my_class group None) ;;
  Traced.lift
    (base_attach rt
       (set_cpp_obj self {| cpp_cls := my_class;
                            cpp_group := group;
                            cpp_manifold := None;
                            cpp_attrs := attrs |})).

(** The manifold held by the parameter dictionary after
    [self.manifold_constraint._attach()]: the dictionary refers to the
    object that was attached. *)
Definition store_manifold (self : t) (m : Manifold) : t :=
  {| _attached := _attached self;
     _param_dict :=
       {| ParameterDict.types := ParameterDict.types (_param_dict self);
          ParameterDict.values :=
            <["manifold_constraint" := PyManifold m]>
              (ParameterDict.values (_param_dict self)) |};
     _cpp_obj := _cpp_obj self |}.

(** [_attach(self)]: the lookups made in [_md] and the outcome.
    [self.manifold_constraint] and [self.filter] go through
    [_getattr_param].  The class name is taken from the manifold as it was
    stored: calling [_attach] on an object does not change its class.  The
    last statement, [super()._attach()], is [Active._attach]. *)
Definition _attach (rt : Runtime) (_md : Native.module) (sim : Simulation)
    (self : t) : Traced.traced t :=
  mc <~ Traced.lift (_getattr_param self "manifold_constraint") ;;
  match mc with
  | PyManifold m =>
      m' <~ Traced.lift (if manifold_attached m then Ok m
                         else manifold_attach rt m) ;;
      let self := store_manifold self m' in
      cls <~ Traced.lookup _md (base_class_str m (device sim)) ;;
      _ <~ Traced.lift (cpp_sys_def rt sim) ;;
      filter <~ Traced.lift (_getattr_param self "filter") ;;
      group <~ Traced.lift (get_group rt sim filter) ;;
      attrs <~ Traced.lift
                 (native_init rt cls group (manifold_cpp_obj m')) ;;
      Active_attach rt _md sim
        (set_cpp_obj self {| cpp_cls := cls;
                             cpp_group := group;
                             cpp_manifold := manifold_cpp_obj m';
                             cpp_attrs := attrs |})
  | _ => Traced.lift (Raise (AttributeError "_attached"))
  end.

End ActiveOnManifold.

(** ** The balancing step

    The step itself runs in the native classes [_hoomd.LoadBalancer] and
    [_hoomd.LoadBalancerGPU], which [LoadBalancer._attach] instantiates and
    whose code is not among the sources.  This module follows the
    specification (sections 3, 4 and 7) and the class docstring of
    [hoomd/tune/balance.py], over exact rationals. *)

Module Balance.

Local Open Scope Q_scope.

Inductive axis : Type := AxisX | AxisY | AxisZ.

#[export] Instance axis_eq_dec : EqDecision axis.
Proof. solve_decision. Defined.

(** Section 3, DecompositionGrid: for each axis the ordered sequence of
    boundary coordinates. *)
Record DecompositionGrid : Type := {
  bounds_x : list Q;
  bounds_y : list Q;
  bounds_z : list Q
}.

Definition boundaries (g : DecompositionGrid) (a : axis) : list Q :=
  match a with
  | AxisX => bounds_x g
  | AxisY => bounds_y g
  | AxisZ => bounds_z g
  end.

Definition set_boundaries (g : DecompositionGrid) (a : axis) (bs : list Q)
  : DecompositionGrid :=
  match a with
  | AxisX => {| bounds_x := bs; bounds_y := bounds_y g; bounds_z := bounds_z g |}
  | AxisY => {| bounds_x := bounds_x g; bounds_y := bs; bounds_z := bounds_z g |}
  | AxisZ => {| bounds_x := bounds_x g; bounds_y := bounds_y g; bounds_z := bs |}
  end.

Definition Qlt_bool (a b : Q) : bool := negb (Qle_bool b a).

(** The grid invariant of section 3 on one axis. *)
Fixpoint strictly_increasing (bs : list Q) : bool :=
  match bs with
  | [] => true
  | a :: rest =>
      match rest with
      | [] => true
      | b :: _ => Qlt_bool a b && strictly_increasing rest
      end
  end.


(** Section 3, BalanceConfig. *)
Record BalanceConfig : Type := {
  x : bool;
  y : bool;
  z : bool;
  tolerance : Q;
  max_iterations : Z
}.

Definition enabled (cfg : BalanceConfig) (a : axis) : bool :=
  match a with
  | AxisX => x cfg
  | AxisY => y cfg
  | AxisZ => z cfg
  end.

(** Section 3, RankLoad: the particle count of the rank at grid position
    [(i, j, k)]. *)
Definition RankLoad : Type := nat -> nat -> nat -> Z.

Definition ranks_along (g : DecompositionGrid) (a : axis) : nat :=
  pred (length (boundaries g a)).

Definition sum_upto (n : nat) (f : nat -> Z) : Z :=
  fold_right Z.add 0%Z (map f (seq 0 n)).

Definition total_count (g : DecompositionGrid) (c : RankLoad) : Z :=
  sum_upto (ranks_along g AxisX) (fun i =>
    sum_upto (ranks_along g AxisY) (fun j =>
      sum_upto (ranks_along g AxisZ) (fun k => c i j k))).

Definition rank_count (g : DecompositionGrid) : nat :=
  (ranks_along g AxisX * ranks_along g AxisY * ranks_along g AxisZ)%nat.

(** Modelled from the spec: section 4.1, LoadSampler (the reduction lives
    in the native class).  The load of slab [i] along an axis is the
    total count over all ranks whose sub-domain projects into that slab,
    that is, summed over the other two axes. *)
Definition slab_load (g : DecompositionGrid) (c : RankLoad) (a : axis)
    (i : nat) : Z :=
  match a with
  | AxisX => sum_upto (ranks_along g AxisY) (fun j =>
               sum_upto (ranks_along g AxisZ) (fun k => c i j k))
  | AxisY => sum_upto (ranks_along g AxisX) (fun j =>
               sum_upto (ranks_along g AxisZ) (fun k => c j i k))
  | AxisZ => sum_upto (ranks_along g AxisX) (fun j =>
               sum_upto (ranks_along g AxisY) (fun k => c j k i))
  end.

Definition LoadSampler (g : DecompositionGrid) (c : RankLoad) (a : axis)
  : list Z :=
  map (slab_load g c a) (seq 0 (ranks_along g a)).

(** Modelled from the spec: section 3,
    ImbalanceFactor(rank) = count(rank) / (N / P). *)
Definition ImbalanceFactor (g : DecompositionGrid) (c : RankLoad)
    (i j k : nat) : Q :=
  inject_Z (c i j k)
  / (inject_Z (total_count g c) / inject_Z (Z.of_nat (rank_count g))).

Definition all_upto (n : nat) (f : nat -> bool) : bool :=
  forallb f (seq 0 n).

(** Modelled from the spec: section 4.3, CheckConverged (decided inside
    the native class).  The maximum absolute deviation of the imbalance
    factor from 1.0 over all ranks is at most tolerance - 1.0. *)
Definition converged (cfg : BalanceConfig) (g : DecompositionGrid)
    (c : RankLoad) : bool :=
  all_upto (ranks_along g AxisX) (fun i =>
    all_upto (ranks_along g AxisY) (fun j =>
      all_upto (ranks_along g AxisZ) (fun k =>
        Qle_bool (Qabs (ImbalanceFactor g c i j k - 1))
                 (tolerance cfg - 1)))).

(** *** AxisRebalancer *)

Inductive side : Type := Lower | Upper.

(** Limit [d] to the interval from [- m] to [m]. *)
Definition clamp (m d : Q) : Q := Qmax (- m) (Qmin m d).

Section AxisRebalancer.

(** The specification speaks of "the boundary's own slab" without
    saying which of the two slabs that meet at the boundary is meant;
    both readings are covered. *)
Variable own : side.

(** The desired shift of interior boundary [i], from the slab loads and
    the current boundaries.  Section 4.2 only fixes that it is
    proportional to the load difference of the two adjacent slabs and
    that zero-load slabs are left out of the ratio; any rule is
    admitted here. *)
Variable desired_shift : list Z -> list Q -> nat -> Q.

Definition boundary (bs : list Q) (i : nat) : Q := nth i bs 0.

Definition own_slab_width (bs : list Q) (i : nat) : Q :=
  match own with
  | Lower => boundary bs i - boundary bs (i - 1)
  | Upper => boundary bs (i + 1) - boundary bs i
  end.

(** The interior boundaries are the ones that move; the first and the
    last entry are the fixed outer edges. *)
Definition is_interior (bs : list Q) (i : nat) : bool :=
  (0 <? i)%nat && (i + 1 <? length bs)%nat.

(** Modelled from the spec: section 4.2, the clamp (the arithmetic is
    in the native class).  The shift magnitude is at most the minimum
    of 5% of the boundary's own slab width and 50% of the distance to
    the nearest other moving boundary on either side.  The nearest
    moving boundary on a side is the adjacent boundary when that one is
    interior; next to a fixed outer edge there is none on that side,
    and that side adds no term. *)
Definition max_shift (bs : list Q) (i : nat) : Q :=
  let own_limit := (5 # 100) * own_slab_width bs i in
  let lower_limit :=
    if is_interior bs (i - 1)
    then Qmin own_limit ((1 # 2) * (boundary bs i - boundary bs (i - 1)))
    else own_limit in
  if is_interior bs (i + 1)
  then Qmin lower_limit ((1 # 2) * (boundary bs (i + 1) - boundary bs i))
  else lower_limit.

Definition applied_shift (loads : list Z) (bs : list Q) (i : nat) : Q :=
  if is_interior bs i
  then clamp (max_shift bs i) (desired_shift loads bs i)
  else 0.

Definition new_boundary (loads : list Z) (bs : list Q) (i : nat) : Q :=
  if is_interior bs i
  then boundary bs i + applied_shift loads bs i
  else boundary bs i.

(** Modelled from the spec: section 4.2, AxisRebalancer.  Input: the
    slab loads and the boundary sequence of one axis; output: a
    boundary sequence of the same length.  Every interior boundary is
    moved by its clamped desired shift, all shifts being computed from
    the boundaries as they were on entry; the outer edges are copied. *)
Definition AxisRebalancer (loads : list Z) (bs : list Q) : list Q :=
  map (new_boundary loads bs) (seq 0 (length bs)).

End AxisRebalancer.

(** A sample rule for the desired shift, used in the examples below: the
    load difference of the two slabs that meet at boundary [i]. *)
Definition load_difference_shift (loads : list Z) (bs : list Q) (i : nat)
  : Q :=
  inject_Z (nth (i - 1) loads 0%Z - nth i loads 0%Z).

(** *** IterationController *)

(** What the balancer consumes from outside: whether a multi-rank
    decomposition is active, and the particle count each rank owns under
    a given grid (the outcome of the collective reduction). *)
Record Environment : Type := {
  decomposition_active : bool;
  owned : DecompositionGrid -> RankLoad
}.

Inductive phase : Type :=
| Idle
| CheckEligible
| Sample
| Adjust (loads : axis -> list Z)
| CheckConverged
| Done.

Record machine : Type := {
  current : phase;
  grid : DecompositionGrid;
  passes : Z
}.

Section IterationController.

Variable own : side.
Variable desired_shift : list Z -> list Q -> nat -> Q.
Variable env : Environment.
Variable cfg : BalanceConfig.

(** Modelled from the spec: section 4.2, the rebalancer applied to one
    axis of the grid.  Disabled axes pass through unchanged. *)
Definition adjust_axis (loads : axis -> list Z) (g : DecompositionGrid)
    (a : axis) : DecompositionGrid :=
  if enabled cfg a
  then set_boundaries g a
         (AxisRebalancer own desired_shift (loads a) (boundaries g a))
  else g.

(** Modelled from the spec: section 4.3, Adjust.  The axes are taken in
    the fixed order x, y, z. *)
Definition adjust_all (loads : axis -> list Z) (g : DecompositionGrid)
  : DecompositionGrid :=
  adjust_axis loads (adjust_axis loads (adjust_axis loads g AxisX) AxisY)
    AxisZ.

Definition eligible (g : DecompositionGrid) : bool :=
  decomposition_active env
  && negb (total_count g (owned env g) =? 0)%Z.

(** Modelled from the spec: section 4.3, the state machine
    Idle, CheckEligible, Sample, Adjust, CheckConverged, Done of the
    native balancer.  A pass that neither converged nor used up the
    iteration budget loops back to Sample, as the text of the section
    says. *)
Definition step (m : machine) : machine :=
  match current m with
  | Idle =>
      {| current := CheckEligible; grid := grid m; passes := passes m |}
  | CheckEligible =>
      {| current := if eligible (grid m) then Sample else Done;
         grid := grid m; passes := passes m |}
  | Sample =>
      {| current := Adjust (LoadSampler (grid m) (owned env (grid m)));
         grid := grid m; passes := passes m |}
  | Adjust loads =>
      {| current := CheckConverged;
         grid := adjust_all loads (grid m);
         passes := (passes m + 1)%Z |}
  | CheckConverged =>
      {| current :=
           if converged cfg (grid m) (owned env (grid m))
              || (max_iterations cfg <=? passes m)%Z
           then Done else Sample;
         grid := grid m; passes := passes m |}
  | Done => m
  end.

Fixpoint run (fuel : nat) (m : machine) : machine :=
  match fuel with
  | O => m
  | S fuel => run fuel (step m)
  end.

(** Steps that suffice for one invocation: two to reach [Sample], three
    per pass, and at least one pass. *)
Definition budget : nat :=
  (3 * Z.to_nat (Z.max 1 (max_iterations cfg)) + 2)%nat.

(** Modelled from the spec: one balancing invocation on grid [g], the
    state machine run from Idle. *)
Definition invoke (g : DecompositionGrid) : machine :=
  run budget {| current := Idle; grid := g; passes := 0 |}.

End IterationController.

(** The boundaries the clamp keeps in order: all but the outer edge that
    does not bound the own slab of the boundary next to it.  With the
    lower slab as own slab that is every boundary but the last, with the
    upper slab every boundary but the first. *)
Definition guarded (own : side) (bs : list Q) : list Q :=
  match own with
  | Lower => removelast bs
  | Upper => tail bs
  end.

(** The positions [i] for which [i] and [i + 1] both lie in
    [guarded own bs]. *)
Definition guarded_pair (own : side) (bs : list Q) (i : nat) : Prop :=
  match own with
  | Lower => (S (S i) < length bs)%nat
  | Upper => (0 < i /\ S i < length bs)%nat
  end.



End Balance.

(** * Sample objects *)

Module Samples.

Definition every_step : Trigger := {| compute := fun _ => true |}.

Definition hoomd_module : Native.module :=
  {[ "LoadBalancer"; "LoadBalancerGPU"; "CustomForceCompute" ]}.

Definition md_module : Native.module :=
  {[ "ActiveForceCompute"; "ActiveForceComputeGPU";
     "ActiveForceConstraintComputeSphere";
     "ActiveForceConstraintComputeSphereGPU" ]}.

Definition cpu_sim : Simulation := {| device := Device.CPU |}.
Definition gpu_sim : Simulation := {| device := Device.GPU |}.

(** [LoadBalancer(trigger)] once [__init__] has run. *)
Definition default_param_dict : ParameterDict.t :=
  {| ParameterDict.types :=
       list_to_map
         [("x", TBool); ("y", TBool); ("z", TBool); ("max_iterations", TInt);
          ("tolerance", TFloat); ("trigger", TTrigger)];
     ParameterDict.values :=
       list_to_map
         [("x", PyBool true); ("y", PyBool true); ("z", PyBool true);
          ("tolerance", PyFloat (102 # 100)); ("max_iterations", PyInt 1);
          ("trigger", PyTrigger every_step)] |}.

Definition default_balancer : LoadBalancer.t :=
  {| LoadBalancer._param_dict := default_param_dict;
     LoadBalancer._cpp_obj := None |}.

Definition attached_balancer : LoadBalancer.t :=
  {| LoadBalancer._param_dict := default_param_dict;
     LoadBalancer._cpp_obj :=
       Some {| LoadBalancer.cpp_cls := "LoadBalancerGPU";
               LoadBalancer.cpp_trigger := PyTrigger every_step |} |}.

Definition some_active : Active.t :=
  {| Active._param_dict :=
       {| ParameterDict.types := list_to_map [("filter", TParticleFilter)];
          ParameterDict.values := list_to_map [("filter", PyFilter [0; 5]%nat)] |};
     Active._cpp_obj := None |}.

Definition attached_active : Active.t :=
  {| Active._param_dict := Active._param_dict some_active;
     Active._cpp_obj :=
       Some {| Active.cpp_cls := "ActiveForceComputeGPU";
               Active.cpp_group := PyFilter [0; 5]%nat |} |}.

Definition sphere : Manifold :=
  {| __class____name__ := "Sphere";
     manifold_attached := false;
     manifold_cpp_obj := None |}.

Definition manifold_param_dict (m : Manifold) : ParameterDict.t :=
  {| ParameterDict.types :=
       list_to_map [("filter", TParticleFilter);
                    ("manifold_constraint", TManifold)];
     ParameterDict.values :=
       list_to_map [("filter", PyFilter [0; 5]%nat);
                    ("manifold_constraint", PyManifold m)] |}.

(** [ActiveOnManifold(filter, sphere)] before it is attached. *)
Definition detached_on_sphere : ActiveOnManifold.t :=
  {| ActiveOnManifold._attached := false;
     ActiveOnManifold._param_dict := manifold_param_dict sphere;
     ActiveOnManifold._cpp_obj := None |}.

(** The same object attached on a GPU; the native object reports a filter
    of its own. *)
Definition attached_on_sphere : ActiveOnManifold.t :=
  {| ActiveOnManifold._attached := true;
     ActiveOnManifold._param_dict :=
       manifold_param_dict (ActiveOnManifold.Manifold_attach sphere);
     ActiveOnManifold._cpp_obj :=
       Some {| ActiveOnManifold.cpp_cls :=
                 "ActiveForceConstraintComputeSphereGPU";
               ActiveOnManifold.cpp_group := PyFilter [0; 5]%nat;
               ActiveOnManifold.cpp_manifold := Some "Sphere";
               ActiveOnManifold.cpp_attrs :=
                 list_to_map [("filter", PyFilter [7]%nat)] |} |}.

(** A base-class [_setattr_param] that stores the value in the parameter
    dictionary without conversion. *)
Definition store_setattr_param (self : ActiveOnManifold.t) (attr : string)
    (value : pyval) : ActiveOnManifold.t * result unit :=
  ({| ActiveOnManifold._attached := ActiveOnManifold._attached self;
      ActiveOnManifold._param_dict :=
        {| ParameterDict.types :=
             ParameterDict.types (ActiveOnManifold._param_dict self);
           ParameterDict.values :=
             <[attr := value]>
               (ParameterDict.values (ActiveOnManifold._param_dict self)) |};
      ActiveOnManifold._cpp_obj := ActiveOnManifold._cpp_obj self |},
   Ok tt).

(** [LoadBalancer(trigger, x=1, y=None, z=True, tolerance=1,
    max_iterations=2.7)] once [__init__] has run. *)
Definition converted_balancer : LoadBalancer.t :=
  {| LoadBalancer._param_dict :=
       {| ParameterDict.types := ParameterDict.types default_param_dict;
          ParameterDict.values :=
            list_to_map
              [("x", PyBool true); ("y", PyBool false); ("z", PyBool true);
               ("tolerance", PyFloat (inject_Z 1)); ("max_iterations", PyInt 2);
               ("trigger", PyTrigger every_step)] |};
     LoadBalancer._cpp_obj := None |}.

Definition custom_on (sim : Simulation) (in_context_manager : bool)
  : Custom.t :=
  {| Custom._in_context_manager := in_context_manager;
     Custom._simulation := Some sim |}.

(** Four ranks along x with the counts 100, 100, 300, 100 of section 8. *)
Definition four_slabs : Balance.DecompositionGrid :=
  {| Balance.bounds_x := [0; 1 # 4; 1 # 2; 3 # 4; 1]%Q;
     Balance.bounds_y := [0; 1]%Q;
     Balance.bounds_z := [0; 1]%Q |}.

Definition skewed_counts : Balance.RankLoad :=
  fun i _ _ => nth i [100; 100; 300; 100]%Z 0%Z.


Definition single_process_env : Balance.Environment :=
  {| Balance.decomposition_active := false;
     Balance.owned := fun _ => skewed_counts |}.






Definition three_passes : Balance.BalanceConfig :=
  {| Balance.x := true; Balance.y := true; Balance.z := true;
     Balance.tolerance := (102 # 100)%Q;
     Balance.max_iterations := 3 |}.

End Samples.

(** * Construction of the active forces *)

(** ** [Active.__init__] and [ActiveOnManifold.__init__] *)

Module ForceInit.

(** The [_param_dict] a force object starts with, before [__init__] has
    added anything: the base class [_HOOMDBaseObject] is not among the
    sources, and an empty dictionary is what [Active.__init__] can update. *)
Definition base_param_dict : ParameterDict.t := ParameterDict.make [].

(** [d.update(other)] with [other] a [ParameterDict]: the keys of [other]
    come over with their types and values, those of [other] taking
    precedence.  ([ParameterDict] is not among the sources; this is what
    makes [self.filter] readable after [Active.__init__].) *)
Definition update_from (d other : ParameterDict.t) : ParameterDict.t :=
  {| ParameterDict.types := ParameterDict.types other ∪ ParameterDict.types d;
     ParameterDict.values :=
       ParameterDict.values other ∪ ParameterDict.values d |}.

(** [TypeParameter(name, type_kind, TypeParameterDict(default, len_keys))] *)
Record TypeParameter : Type := {
  tp_name : string;
  type_kind : string;
  tp_default : Q * Q * Q;
  len_keys : nat
}.

(** The two type parameters [Active.__init__] hands to
    [_extend_typeparam]. *)
Definition active_typeparams : list TypeParameter :=
  [ {| tp_name := "active_force"; type_kind := "particle_types";
       tp_default := (1, 0, 0)%Q; len_keys := 1 |};
    {| tp_name := "active_torque"; type_kind := "particle_types";
       tp_default := (0, 0, 0)%Q; len_keys := 1 |} ].

(** The part of [Active.__init__(self, filter)] that builds the parameter
    dictionary, starting from the dictionary [self] already has. *)
Definition Active_init_param_dict (self_param_dict : ParameterDict.t)
    (filter : pyval) : result ParameterDict.t :=
  let param_dict := ParameterDict.make [("filter", TParticleFilter)] in
  param_dict <- ParameterDict.setitem param_dict "filter" filter ;;
  Ok (update_from self_param_dict param_dict).

(** [ActiveOnManifold.__init__(self, filter, manifold_constraint)]:
    [super().__init__(filter)] first, then the entry for the manifold,
    declared [OnlyTypes(Manifold, allow_none=False)].  A new object is
    not attached. *)
Definition ActiveOnManifold_init (filter manifold_constraint : pyval)
  : result (ActiveOnManifold.t * list TypeParameter) :=
  d <- Active_init_param_dict base_param_dict filter ;;
  let param_dict := ParameterDict.make [("manifold_constraint", TManifold)] in
  param_dict <-
    ParameterDict.setitem param_dict "manifold_constraint"
      manifold_constraint ;;
  Ok ({| ActiveOnManifold._attached := false;
         ActiveOnManifold._param_dict := update_from d param_dict;
         ActiveOnManifold._cpp_obj := None |},
      active_typeparams).

End ForceInit.

(** ** More sample objects *)

Module Scenarios.

Import Samples.




Definition sphere_gpu_class : Manifold :=
  {| __class____name__ := "SphereGPU";
     manifold_attached := false;
     manifold_cpp_obj := None |}.

End Scenarios.

(** * Properties of the Python layer *)

Section ParameterDictFacts.

Lemma convert_has_type (key : string) (ty : pytype) (v v' : pyval) :
  ParameterDict.convert key ty v = Ok v' -> has_type ty v' = true.
Proof.
  destruct ty, v; simpl; intros H; inversion H; reflexivity.
Qed.

(** One item assignment of [update]: look the key's type up, convert, and
    go on only if the conversion succeeded. *)
Ltac convert_step key ty :=
  unfold ParameterDict.setitem at 1;
  cbn [ParameterDict.types ParameterDict.values];
  change (list_to_map _ !! key) with (Some ty);
  cbv beta iota;
  match goal with
  | |- context [ParameterDict.convert key ty ?v] =>
      destruct (ParameterDict.convert key ty v);
      cbn [Py.bind]; [|reflexivity]
  end.

(** [LoadBalancer.__init__] converts its six arguments in the order of
    [defaults] and stores the converted values. *)
Lemma LoadBalancer_init_unfold (trigger x y z tolerance max_iterations : pyval) :
  LoadBalancer.__init__ trigger x y z tolerance max_iterations
  = (vx <- ParameterDict.convert "x" TBool x ;;
     vy <- ParameterDict.convert "y" TBool y ;;
     vz <- ParameterDict.convert "z" TBool z ;;
     vt <- ParameterDict.convert "tolerance" TFloat tolerance ;;
     vm <- ParameterDict.convert "max_iterations" TInt max_iterations ;;
     vtr <- ParameterDict.convert "trigger" TTrigger trigger ;;
     Ok {| LoadBalancer._param_dict :=
             {| ParameterDict.types :=
                  list_to_map
                    [("x", TBool); ("y", TBool); ("z", TBool);
                     ("max_iterations", TInt); ("tolerance", TFloat);
                     ("trigger", TTrigger)];
                ParameterDict.values :=
                  list_to_map
                    [("trigger", vtr); ("max_iterations", vm);
                     ("tolerance", vt); ("z", vz); ("y", vy); ("x", vx)] |};
           LoadBalancer._cpp_obj := None |}).
Proof.
  unfold LoadBalancer.__init__, ParameterDict.make.
  cbn [ParameterDict.update].
  convert_step "x" TBool. convert_step "y" TBool. convert_step "z" TBool.
  convert_step "tolerance" TFloat. convert_step "max_iterations" TInt.
  convert_step "trigger" TTrigger.
  reflexivity.
Qed.

End ParameterDictFacts.

Section LoadBalancerFacts.

Import Samples.

(** C1, as stated, fails: with tolerance 0.5 (below 1.0) and max_iterations 0
    (below 1) the constructor raises nothing. *)
Lemma LoadBalancer_init_out_of_range_not_rejected :
  ((1 # 2) < 1)%Q /\ (0 < 1)%Z
  /\ Py.raises
       (LoadBalancer.__init__ (PyTrigger every_step) (PyBool true)
          (PyBool true) (PyBool true) (PyFloat (1 # 2)) (PyInt 0))
     = false.
Proof. repeat split. Qed.

(** C1, amended: the constructor checks no range.  For every float
    tolerance and every integer max_iterations, those below 1.0 and below 1
    included, construction succeeds and the two values are stored as
    given. *)
Theorem LoadBalancer_init_accepts_every_range
    (t : Trigger) (x y z : bool) (tolerance : Q) (max_iterations : Z) :
  exists lb : LoadBalancer.t,
    LoadBalancer.__init__ (PyTrigger t) (PyBool x) (PyBool y) (PyBool z)
      (PyFloat tolerance) (PyInt max_iterations) = Ok lb
    /\ ParameterDict.getitem (LoadBalancer._param_dict lb) "tolerance"
       = Ok (PyFloat tolerance)
    /\ ParameterDict.getitem (LoadBalancer._param_dict lb) "max_iterations"
       = Ok (PyInt max_iterations).
Proof.
  rewrite LoadBalancer_init_unfold. cbn [ParameterDict.convert Py.bind].
  eexists. split; [reflexivity|]. split; reflexivity.
Qed.

(** Every value a successful [__init__] stores is the conversion of the
    argument supplied for its key. *)
Lemma LoadBalancer_init_stored
    (trigger x y z tolerance max_iterations : pyval) (lb : LoadBalancer.t) :
  LoadBalancer.__init__ trigger x y z tolerance max_iterations = Ok lb ->
  exists vx vy vz vt vm vtr : pyval,
    ParameterDict.convert "x" TBool x = Ok vx
    /\ ParameterDict.convert "y" TBool y = Ok vy
    /\ ParameterDict.convert "z" TBool z = Ok vz
    /\ ParameterDict.convert "tolerance" TFloat tolerance = Ok vt
    /\ ParameterDict.convert "max_iterations" TInt max_iterations = Ok vm
    /\ ParameterDict.convert "trigger" TTrigger trigger = Ok vtr
    /\ lb = {| LoadBalancer._param_dict :=
                 {| ParameterDict.types :=
                      list_to_map
                        [("x", TBool); ("y", TBool); ("z", TBool);
                         ("max_iterations", TInt); ("tolerance", TFloat);
                         ("trigger", TTrigger)];
                    ParameterDict.values :=
                      list_to_map
                        [("trigger", vtr); ("max_iterations", vm);
                         ("tolerance", vt); ("z", vz); ("y", vy); ("x", vx)] |};
               LoadBalancer._cpp_obj := None |}.
Proof.
  rewrite LoadBalancer_init_unfold. intros H.
  destruct (ParameterDict.convert "x" TBool x) as [vx|]; [|discriminate].
  destruct (ParameterDict.convert "y" TBool y) as [vy|]; [|discriminate].
  destruct (ParameterDict.convert "z" TBool z) as [vz|]; [|discriminate].
  destruct (ParameterDict.convert "tolerance" TFloat tolerance) as [vt|];
    [|discriminate].
  destruct (ParameterDict.convert "max_iterations" TInt max_iterations)
    as [vm|]; [|discriminate].
  destruct (ParameterDict.convert "trigger" TTrigger trigger) as [vtr|];
    [|discriminate].
  cbn [Py.bind] in H. injection H as <-.
  exists vx, vy, vz, vt, vm, vtr. repeat split; reflexivity.
Qed.

(** C10: [LoadBalancer(trigger)] is configured with x = y = z = True,
    tolerance = 1.02 and max_iterations = 1; the parameter dictionary of
    every constructed balancer recognises exactly the keys x, y, z (bool),
    tolerance (float), max_iterations (int) and trigger (Trigger); and each
    stored value is the supplied one converted to the type of its key. *)
Theorem LoadBalancer_init_defaults_and_types :
  (forall t : Trigger,
     exists lb : LoadBalancer.t,
       LoadBalancer.new (PyTrigger t) None None None None None = Ok lb
       /\ ParameterDict.values (LoadBalancer._param_dict lb)
          = list_to_map
              [("x", PyBool true); ("y", PyBool true); ("z", PyBool true);
               ("tolerance", PyFloat (102 # 100)); ("max_iterations", PyInt 1);
               ("trigger", PyTrigger t)])
  /\ (forall (trigger x y z tolerance max_iterations : pyval)
             (lb : LoadBalancer.t),
        LoadBalancer.__init__ trigger x y z tolerance max_iterations = Ok lb ->
        let d := LoadBalancer._param_dict lb in
        ParameterDict.types d
        = list_to_map
            [("x", TBool); ("y", TBool); ("z", TBool); ("tolerance", TFloat);
             ("max_iterations", TInt); ("trigger", TTrigger)]
        /\ ParameterDict.getitem d "x" = ParameterDict.convert "x" TBool x
        /\ ParameterDict.getitem d "y" = ParameterDict.convert "y" TBool y
        /\ ParameterDict.getitem d "z" = ParameterDict.convert "z" TBool z
        /\ ParameterDict.getitem d "tolerance"
           = ParameterDict.convert "tolerance" TFloat tolerance
        /\ ParameterDict.getitem d "max_iterations"
           = ParameterDict.convert "max_iterations" TInt max_iterations
        /\ ParameterDict.getitem d "trigger"
           = ParameterDict.convert "trigger" TTrigger trigger
        /\ (forall (key : string) (ty : pytype),
              ParameterDict.types d !! key = Some ty ->
              exists v : pyval,
                ParameterDict.values d !! key = Some v
                /\ has_type ty v = true)).
Proof.
  split.
  - intros t. unfold LoadBalancer.new. cbn [default from_option].
    rewrite LoadBalancer_init_unfold. cbn [ParameterDict.convert Py.bind].
    eexists. split; [reflexivity|].
    cbn [LoadBalancer._param_dict ParameterDict.values].
    vm_compute. reflexivity.
  - intros trigger x y z tolerance max_iterations lb H d. subst d.
    apply LoadBalancer_init_stored in H.
    destruct H as (vx & vy & vz & vt & vm & vtr & Hx & Hy & Hz & Ht & Hm & Htr & ->).
    cbn [LoadBalancer._param_dict ParameterDict.types ParameterDict.values].
    rewrite Hx, Hy, Hz, Ht, Hm, Htr.
    split; [vm_compute; reflexivity|].
    do 6 (split; [reflexivity|]).
    intros key ty Hkey.
    apply elem_of_list_to_map_2 in Hkey.
    repeat (apply elem_of_cons in Hkey as [Hkey|Hkey];
            [injection Hkey as -> ->; eexists; split; [reflexivity|];
             eapply convert_has_type; eassumption|]).
    apply elem_of_nil in Hkey. contradiction.
Qed.

Lemma LoadBalancer_init_defaults_and_types_witness :
  LoadBalancer.__init__ (PyTrigger every_step) (PyInt 1) PyNone (PyBool true)
    (PyInt 1) (PyFloat (27 # 10)) = Ok converted_balancer
  /\ ParameterDict.getitem (LoadBalancer._param_dict converted_balancer) "x"
     = Ok (PyBool true)
  /\ ParameterDict.getitem (LoadBalancer._param_dict converted_balancer) "y"
     = Ok (PyBool false)
  /\ ParameterDict.getitem (LoadBalancer._param_dict converted_balancer)
       "tolerance" = Ok (PyFloat (inject_Z 1))
  /\ ParameterDict.getitem (LoadBalancer._param_dict converted_balancer)
       "max_iterations" = Ok (PyInt 2).
Proof.
  assert (H : LoadBalancer.__init__ (PyTrigger every_step) (PyInt 1) PyNone
                (PyBool true) (PyInt 1) (PyFloat (27 # 10))
              = Ok converted_balancer) by (vm_compute; reflexivity).
  destruct (proj2 LoadBalancer_init_defaults_and_types _ _ _ _ _ _ _ H)
    as (_ & Hx & Hy & _ & Ht & Hm & _).
  exact (conj H (conj Hx (conj Hy (conj Ht Hm)))).
Defined.

End LoadBalancerFacts.

Section AttachFacts.

Import Samples.

Lemma getattr_Ok (m : Native.module) (name cls : string) :
  Native.getattr m name = Ok cls -> cls = name /\ name ∈ m.
Proof.
  unfold Native.getattr. destruct (decide (name ∈ m)) as [Hin|_]; [|discriminate].
  intros Heq. injection Heq as <-. split; [reflexivity | exact Hin].
Qed.

Lemma append_empty (s : string) : s +:+ "" = s.
Proof.
  induction s as [|c s IH]; [reflexivity|].
  change (String c s +:+ "") with (String c (s +:+ "")). f_equal. exact IH.
Qed.

(** C5: on attachment the balancer takes the class [LoadBalancerGPU] of
    [_hoomd] exactly when the device of the simulation is a [GPU], and
    [LoadBalancer] otherwise; an active force takes [ActiveForceCompute]
    exactly when the device is a [CPU], and [ActiveForceComputeGPU]
    otherwise. *)
Theorem attach_class_follows_device
    (_hoomd _md : Native.module) (sim : Simulation)
    (lb lb' : LoadBalancer.t) (act act' : Active.t) :
  (LoadBalancer._attach _hoomd sim lb = Ok lb' ->
   exists o : LoadBalancer.cpp_obj,
     LoadBalancer._cpp_obj lb' = Some o
     /\ (LoadBalancer.cpp_cls o = "LoadBalancerGPU"
         <-> Device.isinstance_GPU (device sim) = true)
     /\ (LoadBalancer.cpp_cls o = "LoadBalancer"
         <-> Device.isinstance_GPU (device sim) = false))
  /\ (Active._attach _md sim act = Ok act' ->
      exists o : Active.cpp_obj,
        Active._cpp_obj act' = Some o
        /\ (Active.cpp_cls o = "ActiveForceComputeGPU"
            <-> Device.isinstance_CPU (device sim) = false)
        /\ (Active.cpp_cls o = "ActiveForceCompute"
            <-> Device.isinstance_CPU (device sim) = true)).
Proof.
  split.
  - unfold LoadBalancer._attach. intros H.
    destruct (Native.getattr _hoomd _) as [cls|] eqn:Hcls; [|discriminate].
    destruct (ParameterDict.getitem _ _) as [trigger|]; [|discriminate].
    cbn [Py.bind] in H. injection H as <-.
    apply getattr_Ok in Hcls as [-> _].
    eexists. split; [reflexivity|]. cbn [LoadBalancer.cpp_cls].
    unfold LoadBalancer.cpp_cls_name.
    destruct (Device.isinstance_GPU (device sim)); repeat split; congruence.
  - unfold Active._attach. intros H.
    destruct (Native.getattr _md _) as [cls|] eqn:Hcls; [|discriminate].
    destruct (ParameterDict.getitem _ _) as [filter|]; [|discriminate].
    cbn [Py.bind] in H. injection H as <-.
    apply getattr_Ok in Hcls as [-> _].
    eexists. split; [reflexivity|]. cbn [Active.cpp_cls].
    unfold Active.my_class_name.
    destruct (Device.isinstance_CPU (device sim)); repeat split; congruence.
Qed.

Lemma attach_class_follows_device_witness :
  LoadBalancer._attach hoomd_module gpu_sim default_balancer
  = Ok attached_balancer
  /\ Active._attach md_module gpu_sim some_active = Ok attached_active
  /\ (exists o : LoadBalancer.cpp_obj,
        LoadBalancer._cpp_obj attached_balancer = Some o
        /\ (LoadBalancer.cpp_cls o = "LoadBalancerGPU"
            <-> Device.isinstance_GPU (device gpu_sim) = true)
        /\ (LoadBalancer.cpp_cls o = "LoadBalancer"
            <-> Device.isinstance_GPU (device gpu_sim) = false))
  /\ (exists o : Active.cpp_obj,
        Active._cpp_obj attached_active = Some o
        /\ (Active.cpp_cls o = "ActiveForceComputeGPU"
            <-> Device.isinstance_CPU (device gpu_sim) = false)
        /\ (Active.cpp_cls o = "ActiveForceCompute"
            <-> Device.isinstance_CPU (device gpu_sim) = true)).
Proof.
  assert (H1 : LoadBalancer._attach hoomd_module gpu_sim default_balancer
               = Ok attached_balancer) by (vm_compute; reflexivity).
  assert (H2 : Active._attach md_module gpu_sim some_active
               = Ok attached_active) by (vm_compute; reflexivity).
  destruct (attach_class_follows_device hoomd_module md_module gpu_sim
              default_balancer attached_balancer some_active attached_active)
    as [HL HA].
  exact (conj H1 (conj H2 (conj (HL H1) (HA H2)))).
Defined.


(** C7: a detached [ActiveOnManifold] answers a parameter read from its own
    parameter dictionary; an attached one answers "manifold_constraint" from
    its parameter dictionary and every other parameter from the native
    object. *)
Theorem ActiveOnManifold_getattr_param_by_state
    (self : ActiveOnManifold.t) (attr : string) :
  (ActiveOnManifold._attached self = false ->
   ActiveOnManifold._getattr_param self attr
   = ParameterDict.getitem (ActiveOnManifold._param_dict self) attr)
  /\ (ActiveOnManifold._attached self = true ->
      ActiveOnManifold._getattr_param self "manifold_constraint"
      = ParameterDict.getitem (ActiveOnManifold._param_dict self)
          "manifold_constraint")
  /\ (ActiveOnManifold._attached self = true ->
      attr <> "manifold_constraint" ->
      ActiveOnManifold._getattr_param self attr
      = ActiveOnManifold.getattr_cpp_obj self attr).
Proof.
  unfold ActiveOnManifold._getattr_param. repeat split.
  - intros ->. reflexivity.
  - intros ->. reflexivity.
  - intros -> Hne. apply String.eqb_neq in Hne. rewrite Hne. reflexivity.
Qed.

Lemma ActiveOnManifold_getattr_param_by_state_witness :
  ActiveOnManifold._getattr_param detached_on_sphere "filter"
  = Ok (PyFilter [0; 5]%nat)
  /\ ActiveOnManifold._getattr_param attached_on_sphere "manifold_constraint"
     = Ok (PyManifold (ActiveOnManifold.Manifold_attach sphere))
  /\ ActiveOnManifold._getattr_param attached_on_sphere "filter"
     = Ok (PyFilter [7]%nat).
Proof.
  destruct (ActiveOnManifold_getattr_param_by_state detached_on_sphere "filter")
    as (Hd & _ & _).
  destruct (ActiveOnManifold_getattr_param_by_state attached_on_sphere "filter")
    as (_ & Hm & Ha).
  split; [|split].
  - exact (eq_trans (Hd eq_refl) eq_refl).
  - exact (eq_trans (Hm eq_refl) eq_refl).
  - refine (eq_trans (Ha eq_refl _) eq_refl). discriminate.
Defined.

(** C9: assigning to "manifold_constraint" raises [AttributeError] on an
    attached as on a detached object and leaves the object as it was; any
    other assignment is the base class's [_setattr_param]. *)
Theorem ActiveOnManifold_setattr_param_guard
    (super_setattr_param :
       ActiveOnManifold.t -> string -> pyval -> ActiveOnManifold.t * result unit)
    (self : ActiveOnManifold.t) (attr : string) (value : pyval) :
  ActiveOnManifold._setattr_param super_setattr_param self
    "manifold_constraint" value
  = (self, Raise (AttributeError
             "Cannot set manifold_constraint after construction."))
  /\ (attr <> "manifold_constraint" ->
      ActiveOnManifold._setattr_param super_setattr_param self attr value
      = super_setattr_param self attr value).
Proof.
  unfold ActiveOnManifold._setattr_param. split; [reflexivity|].
  intros Hne. apply String.eqb_neq in Hne. rewrite Hne. reflexivity.
Qed.

Lemma ActiveOnManifold_setattr_param_guard_witness :
  ActiveOnManifold._setattr_param store_setattr_param attached_on_sphere
    "manifold_constraint" PyNone
  = (attached_on_sphere,
     Raise (AttributeError
       "Cannot set manifold_constraint after construction."))
  /\ ActiveOnManifold._setattr_param store_setattr_param detached_on_sphere
       "filter" (PyFilter [1]%nat)
     = store_setattr_param detached_on_sphere "filter" (PyFilter [1]%nat).
Proof.
  split.
  - exact (proj1 (ActiveOnManifold_setattr_param_guard store_setattr_param
                    attached_on_sphere "filter" PyNone)).
  - refine (proj2 (ActiveOnManifold_setattr_param_guard store_setattr_param
                     detached_on_sphere "filter" (PyFilter [1]%nat)) _).
    discriminate.
Defined.

(** C8: with a [GPU] device [gpu_local_force_arrays] raises [RuntimeError]
    (the guard tests for a GPU although its message speaks of the lack of
    one); inside another local-force-arrays context manager it raises
    [RuntimeError] too; it returns a [ForceLocalAccessGPU] only when the
    device is not a GPU and no context manager is active. *)
Theorem Custom_gpu_local_force_arrays_guards
    (self : Custom.t) (sim : Simulation) :
  Custom._simulation self = Some sim ->
  (Device.isinstance_GPU (device sim) = true ->
   Custom.gpu_local_force_arrays self
   = Raise (RuntimeError
       "Cannot access gpu_local_force_arrays without a GPU device"))
  /\ (Custom._in_context_manager self = true ->
      exists msg : string,
        Custom.gpu_local_force_arrays self = Raise (RuntimeError msg))
  /\ (forall a : Custom.local_access,
        Custom.gpu_local_force_arrays self = Ok a
        <-> a = Custom.ForceLocalAccessGPU self
            /\ Device.isinstance_GPU (device sim) = false
            /\ Custom._in_context_manager self = false).
Proof.
  intros Hsim. unfold Custom.gpu_local_force_arrays, Custom.simulation_device.
  rewrite Hsim. cbn [Py.bind].
  destruct (Device.isinstance_GPU (device sim));
    destruct (Custom._in_context_manager self);
    (split; [|split]);
    try (intros _; reflexivity);
    try (intros _; eexists; reflexivity);
    try discriminate;
    intros a; (split; [intros H | intros (Ha & Hg & Hc)]);
    try discriminate.
  - injection H as <-. repeat split.
  - subst a. reflexivity.
Qed.

Lemma Custom_gpu_local_force_arrays_guards_witness :
  Custom.gpu_local_force_arrays (custom_on gpu_sim false)
  = Raise (RuntimeError
      "Cannot access gpu_local_force_arrays without a GPU device")
  /\ Custom.gpu_local_force_arrays (custom_on cpu_sim false)
     = Ok (Custom.ForceLocalAccessGPU (custom_on cpu_sim false)).
Proof.
  split.
  - exact (proj1 (Custom_gpu_local_force_arrays_guards
                    (custom_on gpu_sim false) gpu_sim eq_refl) eq_refl).
  - apply (proj2 (proj2 (Custom_gpu_local_force_arrays_guards
                           (custom_on cpu_sim false) cpu_sim eq_refl))).
    repeat split.
Defined.

End AttachFacts.

(** * Properties of the balancing step *)

Section BalanceFacts.

Import Balance.
Local Open Scope Q_scope.

Lemma Qlt_bool_iff (a b : Q) : Qlt_bool a b = true <-> a < b.
Proof.
  unfold Qlt_bool. rewrite negb_true_iff. split.
  - intros H. apply Qnot_le_lt. intros Hle.
    apply Qle_bool_iff in Hle. congruence.
  - intros H. destruct (Qle_bool b a) eqn:E; [|reflexivity].
    apply Qle_bool_iff in E. lra.
Qed.

Lemma strictly_increasing_cons (a b : Q) (rest : list Q) :
  strictly_increasing (a :: b :: rest) = true
  <-> a < b /\ strictly_increasing (b :: rest) = true.
Proof.
  change (strictly_increasing (a :: b :: rest))
    with (Qlt_bool a b && strictly_increasing (b :: rest)).
  rewrite andb_true_iff, Qlt_bool_iff. reflexivity.
Qed.

(** The boolean check agrees with the usual notion of a strictly sorted
    list. *)
Lemma strictly_increasing_Sorted (bs : list Q) :
  strictly_increasing bs = true <-> Sorted Qlt bs.
Proof.
  induction bs as [|a [|b rest] IH].
  - split; [constructor | reflexivity].
  - split; [repeat constructor | reflexivity].
  - rewrite strictly_increasing_cons, IH. split.
    + intros [Hab Hs]. constructor; [assumption | constructor; assumption].
    + intros Hs. inversion Hs as [|? ? Hs' Hhd]; subst.
      inversion Hhd; subst. split; assumption.
Qed.

(** Adjacent entries, by index. *)
Lemma strictly_increasing_nth (bs : list Q) :
  strictly_increasing bs = true
  <-> forall i, (S i < length bs)%nat -> nth i bs 0 < nth (S i) bs 0.
Proof.
  induction bs as [|a [|b rest] IH].
  - split; [intros _ i Hi; simpl in Hi; lia | reflexivity].
  - split; [intros _ i Hi; simpl in Hi; lia | reflexivity].
  - rewrite strictly_increasing_cons, IH. split.
    + intros [Hab Hs] [|i] Hi; [exact Hab|].
      apply (Hs i). simpl in Hi |- *. lia.
    + intros H. split.
      * apply (H 0%nat). simpl. lia.
      * intros i Hi. apply (H (S i)). simpl in Hi |- *. lia.
Qed.

Lemma clamp_bounds (m d : Q) : 0 <= m -> - m <= clamp m d <= m.
Proof.
  intros Hm. unfold clamp. split.
  - apply Q.le_max_l.
  - apply Q.max_lub; [lra | apply Q.le_min_l].
Qed.

Lemma clamp_abs (m d : Q) : 0 <= m -> Qabs (clamp m d) <= m.
Proof. intros Hm. apply Qabs_Qle_condition. apply clamp_bounds, Hm. Qed.

Lemma is_interior_spec (bs : list Q) (i : nat) :
  is_interior bs i = true <-> (0 < i /\ S i < length bs)%nat.
Proof.
  unfold is_interior.
  rewrite andb_true_iff, Nat.ltb_lt, Nat.ltb_lt, Nat.add_1_r. reflexivity.
Qed.

Variable own : side.
Variable desired_shift : list Z -> list Q -> nat -> Q.


Lemma AxisRebalancer_nth (loads : list Z) (bs : list Q) (i : nat) :
  (i < length bs)%nat ->
  nth i (AxisRebalancer own desired_shift loads bs) 0
  = new_boundary own desired_shift loads bs i.
Proof.
  intros Hi. unfold AxisRebalancer.
  rewrite (nth_indep _ 0 (new_boundary own desired_shift loads bs 0%nat))
    by (rewrite length_map, length_seq; exact Hi).
  rewrite map_nth, seq_nth by exact Hi. reflexivity.
Qed.

Lemma removelast_length (l : list Q) :
  length (removelast l) = pred (length l).
Proof.
  induction l as [|a [|b rest] IH]; [reflexivity | reflexivity |].
  change (removelast (a :: b :: rest)) with (a :: removelast (b :: rest)).
  simpl length in *. rewrite IH. reflexivity.
Qed.

Lemma removelast_nth (l : list Q) (i : nat) :
  (S i < length l)%nat -> nth i (removelast l) 0 = nth i l 0.
Proof.
  revert i. induction l as [|a [|b rest] IH]; intros i Hi.
  - simpl in Hi. lia.
  - simpl in Hi. lia.
  - change (removelast (a :: b :: rest)) with (a :: removelast (b :: rest)).
    destruct i as [|i]; [reflexivity|].
    change (nth i (removelast (b :: rest)) 0 = nth i (b :: rest) 0).
    apply IH. simpl in Hi |- *. lia.
Qed.

(** The guarded boundaries, pair by pair. *)
Lemma guarded_nth (bs : list Q) :
  strictly_increasing (guarded own bs) = true
  <-> forall i, guarded_pair own bs i -> boundary bs i < boundary bs (S i).
Proof.
  rewrite strictly_increasing_nth. unfold guarded, guarded_pair, boundary.
  destruct own.
  - rewrite removelast_length. split; intros H i Hi.
    + rewrite <- (removelast_nth bs i), <- (removelast_nth bs (S i)) by lia.
      apply H. lia.
    + rewrite (removelast_nth bs i), (removelast_nth bs (S i)) by lia.
      apply H. lia.
  - destruct bs as [|b0 rest]; cbn [tail length].
    + split; intros _ i Hi; simpl in Hi; lia.
    + split; intros H i Hi.
      * destruct i as [|i]; [lia|]. apply (H i). lia.
      * apply (H (S i)). lia.
Qed.

Lemma increasing_guarded (bs : list Q) :
  strictly_increasing bs = true ->
  strictly_increasing (guarded own bs) = true.
Proof.
  intros Hs. apply guarded_nth. intros i Hi.
  apply strictly_increasing_nth; [exact Hs|].
  unfold guarded_pair in Hi. destruct own; lia.
Qed.

(** The widths that enter the clamp of an interior boundary are positive
    as long as the guarded boundaries are in order. *)
Lemma interior_widths (bs : list Q) (i : nat) :
  strictly_increasing (guarded own bs) = true ->
  is_interior bs i = true ->
  0 < own_slab_width own bs i
  /\ (is_interior bs (i - 1) = true ->
      0 < boundary bs i - boundary bs (i - 1))
  /\ (is_interior bs (i + 1) = true ->
      0 < boundary bs (i + 1) - boundary bs i).
Proof.
  intros Hs Hi. rewrite guarded_nth in Hs.
  apply is_interior_spec in Hi. destruct Hi as [Hi0 Hi1].
  destruct i as [|i]; [lia|].
  rewrite Nat.sub_succ, Nat.sub_0_r, Nat.add_1_r.
  unfold own_slab_width, guarded_pair in *.
  rewrite ?Nat.sub_succ, ?Nat.sub_0_r, ?Nat.add_1_r.
  repeat split.
  - destruct own.
    + specialize (Hs i ltac:(lia)). lra.
    + specialize (Hs (S i) ltac:(lia)). lra.
  - intros Hl. apply is_interior_spec in Hl.
    destruct own; [specialize (Hs i ltac:(lia)) | specialize (Hs i ltac:(lia))];
      lra.
  - intros Hu. apply is_interior_spec in Hu.
    destruct own;
      [specialize (Hs (S i) ltac:(lia)) | specialize (Hs (S i) ltac:(lia))];
      lra.
Qed.

Lemma max_shift_le (bs : list Q) (i : nat) :
  max_shift own bs i <= (5 # 100) * own_slab_width own bs i
  /\ (is_interior bs (i - 1) = true ->
      max_shift own bs i <= (1 # 2) * (boundary bs i - boundary bs (i - 1)))
  /\ (is_interior bs (i + 1) = true ->
      max_shift own bs i <= (1 # 2) * (boundary bs (i + 1) - boundary bs i)).
Proof.
  unfold max_shift.
  destruct (is_interior bs (i - 1)), (is_interior bs (i + 1));
    repeat split; intros; try discriminate;
    eauto using Q.le_min_l, Q.le_min_r, Qle_trans, Qle_refl.
Qed.

Lemma max_shift_nonneg (bs : list Q) (i : nat) :
  strictly_increasing (guarded own bs) = true ->
  is_interior bs i = true ->
  0 <= max_shift own bs i.
Proof.
  intros Hs Hi. destruct (interior_widths bs i Hs Hi) as (Hown & Hl & Hu).
  unfold max_shift.
  destruct (is_interior bs (i - 1)), (is_interior bs (i + 1));
    repeat apply Q.min_glb;
    try specialize (Hl eq_refl); try specialize (Hu eq_refl); lra.
Qed.

(** The applied shift never exceeds the clamp. *)
Lemma applied_shift_abs (loads : list Z) (bs : list Q) (i : nat) :
  strictly_increasing (guarded own bs) = true ->
  is_interior bs i = true ->
  Qabs (applied_shift own desired_shift loads bs i) <= max_shift own bs i.
Proof.
  intros Hs Hi. unfold applied_shift. rewrite Hi.
  apply clamp_abs, max_shift_nonneg; assumption.
Qed.










Variable env : Environment.
Variable cfg : BalanceConfig.








Lemma run_Done (fuel : nat) (m : machine) :
  current m = Done -> run own desired_shift env cfg fuel m = m.
Proof.
  intros H. induction fuel as [|fuel IH]; simpl; [reflexivity|].
  unfold step at 1. rewrite H. exact IH.
Qed.




End BalanceFacts.

Section BalanceClaims.

Import Balance Samples.
Local Open Scope Q_scope.




(** C3: one run of AxisRebalancer on a strictly increasing boundary
    sequence moves every interior boundary by at most 5% of the boundary's
    own slab width, and by at most 50% of the distance to the nearest other
    moving boundary on either side, that is, to the adjacent boundary
    wherever that one is interior; where both neighbours are interior the
    shift is at most the minimum of the three. *)
Theorem AxisRebalancer_shift_within_clamp
    (own : side) (desired_shift : list Z -> list Q -> nat -> Q)
    (loads : list Z) (bs : list Q) (i : nat) :
  strictly_increasing bs = true ->
  (0 < i)%nat ->
  (S i < length bs)%nat ->
  Qabs (nth i (AxisRebalancer own desired_shift loads bs) 0 - nth i bs 0)
  <= (5 # 100) * own_slab_width own bs i
  /\ ((1 < i)%nat ->
      Qabs (nth i (AxisRebalancer own desired_shift loads bs) 0 - nth i bs 0)
      <= (1 # 2) * (nth i bs 0 - nth (i - 1) bs 0))
  /\ ((S (S i) < length bs)%nat ->
      Qabs (nth i (AxisRebalancer own desired_shift loads bs) 0 - nth i bs 0)
      <= (1 # 2) * (nth (i + 1) bs 0 - nth i bs 0))
  /\ ((1 < i)%nat -> (S (S i) < length bs)%nat ->
      Qabs (nth i (AxisRebalancer own desired_shift loads bs) 0 - nth i bs 0)
      <= Qmin ((5 # 100) * own_slab_width own bs i)
              (Qmin ((1 # 2) * (nth i bs 0 - nth (i - 1) bs 0))
                    ((1 # 2) * (nth (i + 1) bs 0 - nth i bs 0)))).
Proof.
  intros Hs H0 H1.
  assert (Hi : is_interior bs i = true) by (apply is_interior_spec; lia).
  pose proof (applied_shift_abs own desired_shift loads bs i
                (increasing_guarded own bs Hs) Hi) as Habs.
  destruct (max_shift_le own bs i) as (Hown & Hlow & Hup).
  assert (Hshift :
    Qabs (nth i (AxisRebalancer own desired_shift loads bs) 0 - nth i bs 0)
    <= max_shift own bs i).
  { rewrite AxisRebalancer_nth by lia. unfold new_boundary. rewrite Hi.
    apply Qabs_Qle_condition in Habs. apply Qabs_Qle_condition.
    unfold boundary. lra. }
  assert (Hl : (1 < i)%nat ->
               max_shift own bs i <= (1 # 2) * (nth i bs 0 - nth (i - 1) bs 0)).
  { intros Hlt. apply Hlow. apply is_interior_spec. lia. }
  assert (Hu : (S (S i) < length bs)%nat ->
               max_shift own bs i <= (1 # 2) * (nth (i + 1) bs 0 - nth i bs 0)).
  { intros Hlt. apply Hup. apply is_interior_spec. lia. }
  split; [eapply Qle_trans; eassumption|].
  split; [intros Hlt; eapply Qle_trans; [exact Hshift | exact (Hl Hlt)]|].
  split; [intros Hlt; eapply Qle_trans; [exact Hshift | exact (Hu Hlt)]|].
  intros Hlt Hlt'. eapply Qle_trans; [exact Hshift|].
  repeat apply Q.min_glb; auto.
Qed.

Lemma AxisRebalancer_shift_within_clamp_witness :
  Qabs (nth 2 (AxisRebalancer Lower load_difference_shift
                 [100; 100; 300; 100]%Z (bounds_x four_slabs)) 0
        - nth 2 (bounds_x four_slabs) 0)
  <= Qmin ((5 # 100) * own_slab_width Lower (bounds_x four_slabs) 2)
          (Qmin ((1 # 2) * (nth 2 (bounds_x four_slabs) 0
                            - nth (2 - 1) (bounds_x four_slabs) 0))
                ((1 # 2) * (nth (2 + 1) (bounds_x four_slabs) 0
                            - nth 2 (bounds_x four_slabs) 0))).
Proof.
  assert (Hs : strictly_increasing (bounds_x four_slabs) = true)
    by reflexivity.
  assert (H0 : (0 < 2)%nat) by lia.
  assert (H1 : (3 < length (bounds_x four_slabs))%nat) by (simpl; lia).
  destruct (AxisRebalancer_shift_within_clamp Lower load_difference_shift
              [100; 100; 300; 100]%Z (bounds_x four_slabs) 2 Hs H0 H1)
    as (_ & _ & _ & Hall).
  apply Hall; simpl; lia.
Defined.

(** C4: an invocation with no multi-rank decomposition active, or with a
    total particle count of zero, completes at once and leaves the grid,
    hence every boundary sequence, identical to its input; the machine has
    no failure state, so nothing is raised. *)
Theorem ineligible_invocation_is_noop
    (own : side) (desired_shift : list Z -> list Q -> nat -> Q)
    (env : Environment) (cfg : BalanceConfig) (g : DecompositionGrid) :
  decomposition_active env = false \/ total_count g (owned env g) = 0%Z ->
  invoke own desired_shift env cfg g
  = {| current := Done; grid := g; passes := 0 |}.
Proof.
  intros H. unfold invoke, budget. rewrite Nat.add_comm.
  change (run own desired_shift env cfg (2 + ?k) ?m)
    with (run own desired_shift env cfg k
            (step own desired_shift env cfg
               (step own desired_shift env cfg m))).
  cbn [step current grid passes].
  assert (He : eligible env g = false).
  { unfold eligible. destruct H as [-> | ->]; [reflexivity|].
    apply andb_false_r. }
  rewrite He. apply run_Done. reflexivity.
Qed.

Lemma ineligible_invocation_is_noop_witness :
  invoke Upper load_difference_shift single_process_env three_passes four_slabs
  = {| current := Done; grid := four_slabs; passes := 0 |}.
Proof.
  apply (ineligible_invocation_is_noop Upper load_difference_shift
           single_process_env three_passes four_slabs).
  left. reflexivity.
Defined.

End BalanceClaims.

(** * Further properties of the Python layer *)

Section NameFacts.

Import Samples Scenarios.

Lemma append_length (a b : string) :
  String.length (a +:+ b) = (String.length a + String.length b)%nat.
Proof.
  induction a as [|c a IH]; [reflexivity|].
  change (String c a +:+ b) with (String c (a +:+ b)).
  simpl. rewrite IH. reflexivity.
Qed.

Lemma append_cancel_l (s a b : string) : s +:+ a = s +:+ b -> a = b.
Proof.
  induction s as [|c s IH]; intros H; [exact H|].
  change (String c (s +:+ a) = String c (s +:+ b)) in H.
  injection H as H. exact (IH H).
Qed.

Lemma append_cancel_r (s a b : string) : a +:+ s = b +:+ s -> a = b.
Proof.
  revert b. induction a as [|c a IH]; intros [|c' b] H.
  - reflexivity.
  - apply (f_equal String.length) in H. rewrite !append_length in H.
    cbn [String.length] in H. lia.
  - apply (f_equal String.length) in H. rewrite !append_length in H.
    cbn [String.length] in H. lia.
  - change (String c (a +:+ s) = String c' (b +:+ s)) in H.
    injection H as -> H. f_equal. exact (IH b H).
Qed.

Lemma base_class_str_spec (m : Manifold) (dev : Device.device) :
  ActiveOnManifold.base_class_str m dev
  = ("ActiveForceConstraintCompute" +:+ __class____name__ m)
    +:+ (if Device.isinstance_GPU dev then "GPU" else "").
Proof.
  unfold ActiveOnManifold.base_class_str.
  destruct (Device.isinstance_GPU dev); [reflexivity|].
  symmetry. apply append_empty.
Qed.

(** X1: on one device the class name built by [ActiveOnManifold._attach]
    tells the manifold classes apart; across devices it does not: a
    manifold class called N followed by "GPU" on a device that is not a
    GPU and a manifold class called N on a GPU lead to the same lookup. *)
Theorem base_class_str_injective_per_device
    (m m' : Manifold) (dev dev' : Device.device) :
  (ActiveOnManifold.base_class_str m dev
   = ActiveOnManifold.base_class_str m' dev ->
   __class____name__ m = __class____name__ m')
  /\ (Device.isinstance_GPU dev = true ->
      Device.isinstance_GPU dev' = false ->
      __class____name__ m' = __class____name__ m +:+ "GPU" ->
      ActiveOnManifold.base_class_str m' dev'
      = ActiveOnManifold.base_class_str m dev).
Proof.
  split.
  - rewrite !base_class_str_spec. intros H.
    apply append_cancel_r in H. exact (append_cancel_l _ _ _ H).
  - intros Hg Hg' Hn. unfold ActiveOnManifold.base_class_str.
    rewrite Hg, Hg', Hn. reflexivity.
Qed.

Lemma base_class_str_injective_per_device_witness :
  (ActiveOnManifold.base_class_str sphere Device.CPU
   = ActiveOnManifold.base_class_str sphere Device.CPU ->
   __class____name__ sphere = __class____name__ sphere)
  /\ ActiveOnManifold.base_class_str sphere_gpu_class Device.CPU
     = ActiveOnManifold.base_class_str sphere Device.GPU.
Proof.
  destruct (base_class_str_injective_per_device sphere sphere Device.CPU
              Device.CPU) as [Hinj _].
  destruct (base_class_str_injective_per_device sphere sphere_gpu_class
              Device.GPU Device.CPU) as [_ Hcol].
  exact (conj Hinj (Hcol eq_refl eq_refl eq_refl)).
Defined.

(** X2: the three [_attach] methods key on different tests.  The balancer
    and [ActiveOnManifold] take the GPU class on the same devices; [Active]
    takes its GPU class while the balancer takes its CPU class exactly on a
    device that is neither a [CPU] nor a [GPU]. *)
Theorem attach_device_tests_disagree (dev : Device.device) (m : Manifold) :
  (LoadBalancer.cpp_cls_name dev = "LoadBalancerGPU"
   <-> ActiveOnManifold.base_class_str m dev
       = ("ActiveForceConstraintCompute" +:+ __class____name__ m) +:+ "GPU")
  /\ (Active.my_class_name dev = "ActiveForceComputeGPU"
      /\ LoadBalancer.cpp_cls_name dev = "LoadBalancer"
      <-> Device.isinstance_CPU dev = false
          /\ Device.isinstance_GPU dev = false).
Proof.
  split.
  - rewrite base_class_str_spec. unfold LoadBalancer.cpp_cls_name.
    destruct (Device.isinstance_GPU dev).
    + split; reflexivity.
    + split; [discriminate|]. intros H.
      apply append_cancel_l in H. discriminate.
  - unfold Active.my_class_name, LoadBalancer.cpp_cls_name.
    destruct dev; cbn; split; intros [H1 H2];
      try discriminate; split; reflexivity.
Qed.

End NameFacts.

Section ConstructionFacts.

Import Samples Scenarios ForceInit.

(** The object [ActiveOnManifold(filter, manifold)] for a filter and a
    manifold of the right types. *)
Lemma ActiveOnManifold_init_Ok (f : list nat) (m : Manifold) :
  ActiveOnManifold_init (PyFilter f) (PyManifold m)
  = Ok ({| ActiveOnManifold._attached := false;
           ActiveOnManifold._param_dict :=
             {| ParameterDict.types :=
                  list_to_map [("manifold_constraint", TManifold);
                               ("filter", TParticleFilter)];
                ParameterDict.values :=
                  list_to_map [("manifold_constraint", PyManifold m);
                               ("filter", PyFilter f)] |};
           ActiveOnManifold._cpp_obj := None |},
        active_typeparams).
Proof. vm_compute. reflexivity. Qed.

(** X5: a newly built [ActiveOnManifold] is detached and gives back its two
    constructor arguments under "filter" and "manifold_constraint"; reading
    any other parameter raises [KeyError]. *)
Theorem ActiveOnManifold_init_then_read (f : list nat) (m : Manifold) :
  exists (self : ActiveOnManifold.t) (tps : list TypeParameter),
    ActiveOnManifold_init (PyFilter f) (PyManifold m) = Ok (self, tps)
    /\ ActiveOnManifold._attached self = false
    /\ ActiveOnManifold._getattr_param self "filter" = Ok (PyFilter f)
    /\ ActiveOnManifold._getattr_param self "manifold_constraint"
       = Ok (PyManifold m)
    /\ (forall attr : string,
          attr <> "filter" -> attr <> "manifold_constraint" ->
          ActiveOnManifold._getattr_param self attr = Raise (KeyError attr)).
Proof.
  eexists. eexists. split; [apply ActiveOnManifold_init_Ok|].
  split; [reflexivity|]. split; [reflexivity|]. split; [reflexivity|].
  intros attr Hf Hm.
  unfold ActiveOnManifold._getattr_param, ParameterDict.getitem.
  cbn [ActiveOnManifold._attached ActiveOnManifold._param_dict
       ParameterDict.values list_to_map foldr uncurry].
  rewrite lookup_insert_ne by (intros E; apply Hm; symmetry; exact E).
  rewrite lookup_insert_ne by (intros E; apply Hf; symmetry; exact E).
  rewrite lookup_empty. reflexivity.
Qed.

Lemma ActiveOnManifold_init_then_read_witness :
  exists self : ActiveOnManifold.t,
    ActiveOnManifold_init (PyFilter [0; 5]%nat) (PyManifold sphere)
    = Ok (self, active_typeparams)
    /\ ActiveOnManifold._getattr_param self "manifold_constraint"
       = Ok (PyManifold sphere)
    /\ ActiveOnManifold._getattr_param self "active_force"
       = Raise (KeyError "active_force").
Proof.
  destruct (ActiveOnManifold_init_then_read [0; 5]%nat sphere)
    as (self & tps & Hinit & _ & _ & Hm & Hother).
  exists self. split; [|split].
  - rewrite Hinit. rewrite ActiveOnManifold_init_Ok in Hinit.
    injection Hinit as _ <-. reflexivity.
  - exact Hm.
  - apply Hother; discriminate.
Defined.

End ConstructionFacts.

Section AttachCompositionFacts.

Import Samples Scenarios ForceInit.














End AttachCompositionFacts.

